(** * The user-account controller

    A shallow embedding of [UserController] and the properties of its
    request handlers.  The controller is orchestration code: every
    method is a sequence of calls on collaborators (validator, user
    model, user service, helpers, stream utilities), interleaved with
    log lines and with the base controller's [this.success] and
    [this.fail].  The collaborators are not part of the controller, so
    they are kept abstract: a method runs against an arbitrary handler
    that answers each call with a value or with a thrown error, and
    the run records every call, log line and response in order. *)

From Stdlib Require Import ZArith.
From stdpp Require Import gmap strings list.

Local Open Scope string_scope.
Local Open Scope Z_scope.
Local Open Scope list_scope.

(** ** JavaScript values

    Request fields are whatever the body parser produced.  The
    controller only tests them for truthiness and compares them with
    [!==], so a number is kept as an integer (what matters is whether
    it is zero and which number it is) and an object or array as its
    reference (it is truthy and equal only to itself). *)

Inductive jsval : Type :=
  | JUndefined
  | JNull
  | JBool (b : bool)
  | JNum (n : Z)
  | JStr (s : string)
  | JObj (ref : positive).

(** [if (v)] and [!v]. *)
Definition truthy (v : jsval) : bool :=
  match v with
  | JUndefined | JNull => false
  | JBool b => b
  | JNum n => negb (Z.eqb n 0)
  | JStr s => negb (String.eqb s "")
  | JObj _ => true
  end.

(** [a === b]. *)
Definition strict_eq (a b : jsval) : bool :=
  match a, b with
  | JUndefined, JUndefined => true
  | JNull, JNull => true
  | JBool x, JBool y => Bool.eqb x y
  | JNum x, JNum y => Z.eqb x y
  | JStr x, JStr y => String.eqb x y
  | JObj x, JObj y => Pos.eqb x y
  | _, _ => false
  end.

(** [a !== b]. *)
Definition strict_ne (a b : jsval) : bool := negb (strict_eq a b).

(** A plain object used as a record of named fields ([ctx.query],
    [ctx.request.body]); reading a missing property gives [undefined]. *)
Definition get (o : gmap string jsval) (k : string) : jsval :=
  default JUndefined (o !! k).

(** ** Errors *)

(** An error object thrown by a collaborator.  The controller reads
    two of its properties, [message] and [errors]. *)
Record Exn : Type := mkExn {
  message : string;
  errors : option (list string)
}.

Module CustomError.

(** The entries of [CustomError.TYPES] the controller refers to. *)
Inductive TYPES : Type :=
  | invalidParam
  | phoneCode_errorCode
  | register_registered
  | login_unRegistered
  | login_passwordError
  | token_error
  | token_expired
  | uploadError.

(** [new CustomError(TYPES.x)] and
    [new CustomError({ code: TYPES.x.code, message: m })]. *)
Inductive t : Type :=
  | new (ty : TYPES)
  | new_with (code_of : TYPES) (msg : string).

End CustomError.

(** What a method hands to [this.fail]: an error it built itself, or
    the object it caught.  The envelope the base controller renders
    from it is not the controller's business and is not modelled. *)
Inductive failure : Type :=
  | Custom (e : CustomError.t)
  | Caught (e : Exn).

(** ** Records of the persistence layer *)

Module User.
Record t : Type := mk {
  id : Z;
  phone : string;
  nickname : string;
  password : string;
  pwd_key : string;
  avatar : string;
  token : string;
  token_expires_in : Z
}.

Definition set_pwd_key (v : string) (u : t) : t :=
  mk (id u) (phone u) (nickname u) (password u) v (avatar u) (token u)
     (token_expires_in u).

Definition set_password (v : string) (u : t) : t :=
  mk (id u) (phone u) (nickname u) v (pwd_key u) (avatar u) (token u)
     (token_expires_in u).
End User.

Definition Buffer : Type := list Byte.byte.

(** [Buffer.concat(parts)]. *)
Definition Buffer_concat (parts : list Buffer) : Buffer := concat parts.

(** An upload stream is a handle owned by the framework. *)
Definition Stream : Type := nat.

Record AvatarInfo : Type := { fileName : string }.

(** The rule sets handed to [ctx.validate]. *)
Inductive Rules : Type :=
  | rules_phone      (* { phone: validateRules.phone } *)
  | registerForm     (* validateRules.registerForm *)
  | loginForm.       (* validateRules.loginForm *)

(** ** Calls on collaborators

    One constructor per call the controller makes; the index is the
    type of the value the call returns when it does not throw. *)

Inductive call : Type -> Type :=
  | ctx_validate (rules : Rules) (data : gmap string jsval) : call unit
  | service_sendPhoneCode (phone : jsval) : call unit
  | service_checkPhoneCode (phone code : jsval) : call bool
  | service_createUser (phone password : jsval) : call User.t
  | service_checkPassword (user : User.t) (password : jsval) : call bool
  | service_generateToken (userId : Z) : call string
  | service_saveAvatar (buf : Buffer) (userId : Z) : call AvatarInfo
  | service_clearToken (userId : Z) : call unit
  | model_findByPhone (phone : jsval) : call (option User.t)
  | model_findOne_token (token : jsval) : call (option User.t)
  | model_getProfile (userId : Z) : call (gmap string jsval)
  | model_update_avatar (avatar : string) (where_id : Z) : call unit
  | user_save (u : User.t) : call unit
  | helper_secretPassword (password : jsval) : call (string * string)
  | helper_isExpired (expires : Z) : call bool
  | ctx_getFileStream : call Stream
  | toArray (stream : Stream) : call (list Buffer)
  | sendToWormhole (stream : Stream) : call unit.

Inductive outcome (X : Type) : Type :=
  | Returned (x : X)
  | Threw (e : Exn).
Arguments Returned {X} x.
Arguments Threw {X} e.

(** ** What a run leaves behind *)

Inductive level : Type := info | warn | error.

Inductive logarg : Type :=
  | LText (s : string)
  | LNum (n : Z)
  | LErr (e : Exn)                        (* the error object *)
  | LErrors (es : option (list string)).  (* its [errors] property *)

Inductive payload : Type :=
  | data_user (id : Z) (nickname : string)   (* { id, nickname } *)
  | data_token (tok : string)
  | data_profile (p : gmap string jsval)
  | data_url (url : string).                 (* { url } *)

Inductive event : Type :=
  | Called {X : Type} (c : call X) (r : outcome X)
  | Logged (lvl : level) (args : list logarg)
  | Success (msg : option string) (data : option payload)
  | Fail (e : failure).

Definition trace : Type := list event.

(** The request context a method reads. *)
Record Ctx : Type := {
  query : gmap string jsval;
  request_body : gmap string jsval;
  userId : Z
}.

(** ** The monad of method bodies

    A statement runs from a world and the trace so far and completes
    normally, by [return], or by throwing. *)

Inductive completion (A : Type) : Type :=
  | Normal (a : A)
  | Return
  | Throw (e : Exn).
Arguments Normal {A} a.
Arguments Return {A}.
Arguments Throw {A} e.

Definition handler (W : Type) : Type :=
  forall X : Type, call X -> W -> outcome X * W.

Definition M (W A : Type) : Type := W * trace -> completion A * (W * trace).

#[export] Instance M_ret {W} : MRet (M W) := fun A a s => (Normal a, s).

#[export] Instance M_bind {W} : MBind (M W) := fun A B k m s =>
  match m s with
  | (Normal a, s') => k a s'
  | (Return, s') => (Return, s')
  | (Throw e, s') => (Throw e, s')
  end.

Section Controller.

Context {W : Type} (handle : handler W).

Definition emit (ev : event) : M W unit :=
  fun '(w, tr) => (Normal tt, (w, tr ++ [ev])).

(** A call on a collaborator: ask the handler, record the exchange,
    and go on with the value or throw the error. *)
Definition perform {X : Type} (c : call X) : M W X :=
  fun '(w, tr) =>
    match handle X c w with
    | (Returned x, w') => (Normal x, (w', tr ++ [Called c (Returned x)]))
    | (Threw e, w') => (Throw e, (w', tr ++ [Called c (Threw e)]))
    end.

(** [return;] *)
Definition return_ {A : Type} : M W A := fun s => (Return, s).

(** [try { body } catch (err) { on_err }] *)
Definition try_catch {A : Type} (body : M W A) (on_err : Exn -> M W A)
  : M W A :=
  fun s =>
    match body s with
    | (Throw e, s') => on_err e s'
    | r => r
    end.

Definition logger (lvl : level) (args : list logarg) : M W unit :=
  emit (Logged lvl args).

Definition this_success (msg : option string) (data : option payload)
  : M W unit :=
  emit (Success msg data).

Definition this_fail (e : failure) : M W unit := emit (Fail e).

Definition new_CustomError (ty : CustomError.TYPES) : failure :=
  Custom (CustomError.new ty).

(** *** getPhoneCode *)
Definition getPhoneCode (ctx : Ctx) : M W unit :=
  try_catch
    (perform (ctx_validate rules_phone (query ctx)))
    (fun err =>
       logger info [LErrors (errors err)];;
       this_fail (new_CustomError CustomError.invalidParam);;
       return_);;
  try_catch
    (perform (service_sendPhoneCode (get (query ctx) "phone"));;
     this_success None None;;
     logger info [LText "成功发送验证码"])
    (fun err =>
       logger warn [LErr err];;
       this_fail (Caught err)).

(** *** register *)
Definition register (ctx : Ctx) : M W unit :=
  try_catch
    (perform (ctx_validate registerForm (request_body ctx)))
    (fun err =>
       logger info [LErrors (errors err)];;
       this_fail (new_CustomError CustomError.invalidParam);;
       return_);;
  let phone := get (request_body ctx) "phone" in
  let code := get (request_body ctx) "code" in
  let password := get (request_body ctx) "password" in
  let rePassword := get (request_body ctx) "rePassword" in
  (if strict_ne password rePassword
   then this_fail (new_CustomError CustomError.invalidParam);; return_
   else mret tt);;
  isCodeCorrect ← perform (service_checkPhoneCode phone code);
  (if negb isCodeCorrect
   then this_fail (new_CustomError CustomError.phoneCode_errorCode);;
        return_
   else mret tt);;
  user ← perform (model_findByPhone phone);
  match user with
  | Some _ =>
      this_fail (new_CustomError CustomError.register_registered);;
      return_
  | None =>
      user ← perform (service_createUser phone password);
      this_success (Some "创建用户成功")
        (Some (data_user (User.id user) (User.nickname user)));;
      logger info [LText "用户 %s 创建成功，id 为 %d";
                   LText (User.nickname user); LNum (User.id user)]
  end.

(** *** login *)
Definition login (ctx : Ctx) : M W unit :=
  try_catch
    (perform (ctx_validate loginForm (request_body ctx)))
    (fun err =>
       this_fail (new_CustomError CustomError.invalidParam);;
       logger warn [LErrors (errors err)];;
       return_);;
  let phone := get (request_body ctx) "phone" in
  let code := get (request_body ctx) "code" in
  let password := get (request_body ctx) "password" in
  user ← perform (model_findByPhone phone);
  match user with
  | None =>
      this_fail (new_CustomError CustomError.login_unRegistered);;
      return_
  | Some user =>
      let userId := User.id user in
      (if truthy password then
         isPwdCorrect ← perform (service_checkPassword user password);
         if negb isPwdCorrect
         then this_fail (new_CustomError CustomError.login_passwordError);;
              return_
         else mret tt
       else if truthy code then
         isCodeCorrect ← perform (service_checkPhoneCode phone code);
         if negb isCodeCorrect
         then this_fail (new_CustomError CustomError.phoneCode_errorCode);;
              return_
         else mret tt
       else mret tt);;
      token ← perform (service_generateToken userId);
      this_success (Some "登陆成功") (Some (data_token token));;
      logger info [LText "用户 %d 登陆成功"; LNum userId]
  end.

(** *** resetPassword *)
Definition resetPassword (ctx : Ctx) : M W unit :=
  try_catch
    (perform (ctx_validate registerForm (request_body ctx)))
    (fun err =>
       logger info [LErrors (errors err)];;
       this_fail (new_CustomError CustomError.invalidParam);;
       return_);;
  let phone := get (request_body ctx) "phone" in
  let code := get (request_body ctx) "code" in
  let password := get (request_body ctx) "password" in
  let rePassword := get (request_body ctx) "rePassword" in
  (if strict_ne password rePassword
   then this_fail (new_CustomError CustomError.invalidParam);; return_
   else mret tt);;
  user ← perform (model_findByPhone phone);
  match user with
  | None =>
      this_fail (new_CustomError CustomError.login_unRegistered);;
      return_
  | Some user =>
      isCodeCorrect ← perform (service_checkPhoneCode phone code);
      (if negb isCodeCorrect
       then this_fail (new_CustomError CustomError.phoneCode_errorCode);;
            return_
       else mret tt);;
      pair_ ← perform (helper_secretPassword password);
      let '(secret, signedPwd) := (pair_ : string * string) in
      let user := User.set_pwd_key secret user in
      let user := User.set_password signedPwd user in
      perform (user_save user);;
      this_success None None;;
      logger info [LText "用户 %d 修改密码"; LNum (User.id user)]
  end.

(** *** refreshToken

    [ctx.query] is the object the framework parsed from the query
    string, so [ctx.query && ctx.query.token] is the [token]
    property. *)
Definition refreshToken (ctx : Ctx) : M W unit :=
  let refreshToken := get (query ctx) "token" in
  (if negb (truthy refreshToken)
   then this_fail (new_CustomError CustomError.token_error);; return_
   else mret tt);;
  logger info [LText "刷新 token"];;
  user ← perform (model_findOne_token refreshToken);
  match user with
  | None =>
      this_fail (new_CustomError CustomError.token_error);;
      return_
  | Some user =>
      expired ← perform (helper_isExpired (User.token_expires_in user));
      (if (expired : bool)
       then this_fail (new_CustomError CustomError.token_expired);; return_
       else mret tt);;
      let userId := User.id user in
      token ← perform (service_generateToken userId);
      this_success (Some "刷新成功") (Some (data_token token));;
      logger info [LText "用户 %d 刷新 token 成功"; LNum userId]
  end.

(** *** getProfile *)
Definition getProfile (ctx : Ctx) : M W unit :=
  profile ← perform (model_getProfile (userId ctx));
  this_success (Some "成功获取用户信息") (Some (data_profile profile)).

(** A variable declared by [let x;] and spliced into a template
    literal: [undefined] prints as the word. *)
Definition template (v : option string) : string :=
  match v with
  | Some s => s
  | None => "undefined"
  end.

(** *** uploadAvatar

    [stream] and [fileName] are declared before their [try] block
    and assigned inside it; each block below yields the value the
    variable holds when the block is left. *)
Definition uploadAvatar (ctx : Ctx) : M W unit :=
  let userId := userId ctx in
  logger info [LText "用户 %d 上传头像"; LNum userId];;
  stream ← try_catch
    (perform ctx_getFileStream)
    (fun err =>
       this_fail (Custom (CustomError.new_with CustomError.uploadError
                            (message err)));;
       return_);
  name ← try_catch
    (parts ← perform (toArray stream);
     let buf := Buffer_concat parts in
     info_ ← perform (service_saveAvatar buf userId);
     logger info [LText "成功保存图片，图片名称为：%s";
                  LText (fileName info_)];;
     mret (Some (fileName info_)))
    (fun err =>
       perform (sendToWormhole stream);;
       this_fail (new_CustomError CustomError.uploadError);;
       logger error [LErr err];;
       mret None);
  let avatarUrl := String.append "/public/uploads/avatar/" (template name) in
  perform (model_update_avatar avatarUrl userId);;
  this_success (Some "修改成功") (Some (data_url avatarUrl));;
  logger info [LText "修改头像成功"].

(** *** exitLogin *)
Definition exitLogin (ctx : Ctx) : M W unit :=
  perform (service_clearToken (userId ctx));;
  this_success (Some "退出登录成功") None;;
  logger info [LText "用户 %s 退出登录"; LNum (userId ctx)].

(** Calling a method on a fresh request: what the caller of the
    [async] method sees (it settles or rejects), the world
    afterwards, and everything that happened. *)
Definition invoke (method : M W unit) (w : W) : outcome unit * W * trace :=
  match method (w, []) with
  | (Throw e, (w', tr)) => (Threw e, w', tr)
  | (_, (w', tr)) => (Returned tt, w', tr)
  end.

End Controller.

(** ** Reading a trace *)

(** The user ids for which a session token was requested. *)
Fixpoint tokens_issued (tr : trace) : list Z :=
  match tr with
  | [] => []
  | Called (service_generateToken uid) _ :: tr' => uid :: tokens_issued tr'
  | _ :: tr' => tokens_issued tr'
  end.

(** The responses written through the base controller, in order. *)
Inductive response : Type :=
  | success (msg : option string) (data : option payload)
  | fail (e : failure).

Fixpoint responses (tr : trace) : list response :=
  match tr with
  | [] => []
  | Success msg data :: tr' => success msg data :: responses tr'
  | Fail e :: tr' => fail e :: responses tr'
  | _ :: tr' => responses tr'
  end.

(** The collaborator calls of a trace, without their answers. *)
Inductive anycall : Type :=
  | Any : forall X : Type, call X -> anycall.
Arguments Any {X} c.

Fixpoint calls (tr : trace) : list anycall :=
  match tr with
  | [] => []
  | Called c _ :: tr' => Any c :: calls tr'
  | _ :: tr' => calls tr'
  end.

(** The phone-code checks of a trace: the phone and code asked about. *)
Fixpoint code_checks (tr : trace) : list (jsval * jsval) :=
  match tr with
  | [] => []
  | Called (service_checkPhoneCode p c) _ :: tr' => (p, c) :: code_checks tr'
  | _ :: tr' => code_checks tr'
  end.

(** The user creations asked of the service: phone and password. *)
Fixpoint users_created (tr : trace) : list (jsval * jsval) :=
  match tr with
  | [] => []
  | Called (service_createUser p pw) _ :: tr' => (p, pw) :: users_created tr'
  | _ :: tr' => users_created tr'
  end.

(** The user records handed to [user.save()]. *)
Fixpoint users_saved (tr : trace) : list User.t :=
  match tr with
  | [] => []
  | Called (user_save u) _ :: tr' => u :: users_saved tr'
  | _ :: tr' => users_saved tr'
  end.

(** The avatar updates asked of the model: the path written and the
    id in the [where] clause. *)
Fixpoint avatar_updates (tr : trace) : list (string * Z) :=
  match tr with
  | [] => []
  | Called (model_update_avatar url uid) _ :: tr' =>
      (url, uid) :: avatar_updates tr'
  | _ :: tr' => avatar_updates tr'
  end.

(** The streams handed to [sendToWormhole]. *)
Fixpoint drained (tr : trace) : list Stream :=
  match tr with
  | [] => []
  | Called (sendToWormhole s) _ :: tr' => s :: drained tr'
  | _ :: tr' => drained tr'
  end.

(** Did a collaborator call of this event throw? *)
Definition threw (ev : event) : bool :=
  match ev with
  | Called _ (Threw _) => true
  | _ => false
  end.

(** Is this event the reading of the upload or the storing of it? *)
Definition reads_or_stores (ev : event) : bool :=
  match ev with
  | Called (toArray _) _ => true
  | Called (service_saveAvatar _ _) _ => true
  | _ => false
  end.

(** Reading the upload or storing it threw somewhere in the trace. *)
Definition store_threw (tr : trace) : bool :=
  existsb (fun ev => reads_or_stores ev && threw ev) tr.

(** A method answers once or rejects: when the call settles exactly
    one response has been written, and when it rejects none has, and
    the error it rejects with is the one the last collaborator call
    threw. *)
Definition one_response_or_reject {W : Type} (method : M W unit) : Prop :=
  forall w : W,
    match invoke method w with
    | (Returned _, _, tr) => exists resp : response, responses tr = [resp]
    | (Threw e, _, tr) =>
        responses tr = [] /\
        exists (X : Type) (c : call X), last tr = Some (Called c (Threw e))
    end.

(** ** An in-memory world

    A small implementation of the collaborators over a list of users.
    It stands in for the validator, the services and the model, which
    live outside the controller, so that the methods can be run on
    concrete requests. *)

Module InMemory.

Record world : Type := {
  users : list User.t;
  codes : list (string * string);   (* phone, code sent to it *)
  sms_fault : option Exn;           (* what the SMS gateway throws *)
  disk_fault : option Exn;          (* what the avatar store throws *)
  now : Z;
  upload : list Buffer              (* chunks of the pending upload *)
}.

Definition with_users (us : list User.t) (w : world) : world :=
  {| users := us; codes := codes w; sms_fault := sms_fault w;
     disk_fault := disk_fault w; now := now w; upload := upload w |}.

Definition with_codes (cs : list (string * string)) (w : world) : world :=
  {| users := users w; codes := cs; sms_fault := sms_fault w;
     disk_fault := disk_fault w; now := now w; upload := upload w |}.

Definition is_text (v : jsval) : bool :=
  match v with
  | JStr s => negb (String.eqb s "")
  | _ => false
  end.

Definition text (v : jsval) : string :=
  match v with
  | JStr s => s
  | _ => ""
  end.

Definition well_formed (rules : Rules) (data : gmap string jsval) : bool :=
  match rules with
  | rules_phone => is_text (get data "phone")
  | loginForm => is_text (get data "phone")
  | registerForm =>
      is_text (get data "phone") && is_text (get data "code")
      && is_text (get data "password") && is_text (get data "rePassword")
  end.

Definition by_phone (p : string) (w : world) : option User.t :=
  List.find (fun u => String.eqb (User.phone u) p) (users w).

Definition by_token (t : string) (w : world) : option User.t :=
  List.find (fun u => String.eqb (User.token u) t) (users w).

Definition code_matches (p c : string) (w : world) : bool :=
  existsb (fun pc => String.eqb (fst pc) p && String.eqb (snd pc) c)
          (codes w).

Definition replace_user (u : User.t) (w : world) : world :=
  with_users
    (List.map (fun v => if Z.eqb (User.id v) (User.id u) then u else v)
              (users w)) w.

Definition change_user (uid : Z) (f : User.t -> User.t) (w : world) : world :=
  with_users
    (List.map (fun v => if Z.eqb (User.id v) uid then f v else v)
              (users w)) w.

Definition sign (key pwd : string) : string :=
  String.append key (String.append ":" pwd).

Definition handle : handler world := fun X c =>
  match c in call X return world -> outcome X * world with
  | ctx_validate rules data => fun w =>
      if well_formed rules data then (Returned tt, w)
      else (Threw (mkExn "Validation Failed" (Some ["invalid field"])), w)
  | service_sendPhoneCode phone => fun w =>
      match sms_fault w with
      | None =>
          (Returned tt, with_codes ((text phone, "123456") :: codes w) w)
      | Some e => (Threw e, w)
      end
  | service_checkPhoneCode phone code => fun w =>
      (Returned (code_matches (text phone) (text code) w), w)
  | service_createUser phone password => fun w =>
      let u := User.mk (Z.of_nat (S (length (users w)))) (text phone)
                 (text phone) (sign "k" (text password)) "k" "" "" 0 in
      (Returned u, with_users (users w ++ [u]) w)
  | service_checkPassword user password => fun w =>
      (Returned (String.eqb (User.password user)
                   (sign (User.pwd_key user) (text password))), w)
  | service_generateToken uid => fun w =>
      let tok := String.append "session-of-" (User.phone
                   (default (User.mk uid "" "" "" "" "" "" 0)
                      (List.find (fun u => Z.eqb (User.id u) uid) (users w)))) in
      (Returned tok,
       change_user uid
         (fun u => User.mk (User.id u) (User.phone u) (User.nickname u)
                     (User.password u) (User.pwd_key u) (User.avatar u)
                     tok (now w + 3600)) w)
  | service_saveAvatar buf uid => fun w =>
      match disk_fault w with
      | None => (Returned {| fileName := "a1.png" |}, w)
      | Some e => (Threw e, w)
      end
  | service_clearToken uid => fun w =>
      (Returned tt,
       change_user uid
         (fun u => User.mk (User.id u) (User.phone u) (User.nickname u)
                     (User.password u) (User.pwd_key u) (User.avatar u)
                     "" 0) w)
  | model_findByPhone phone => fun w =>
      (Returned (by_phone (text phone) w), w)
  | model_findOne_token tok => fun w =>
      (Returned (by_token (text tok) w), w)
  | model_getProfile uid => fun w =>
      (Returned
         (match List.find (fun u => Z.eqb (User.id u) uid) (users w) with
          | Some u => {[ "nickname" := JStr (User.nickname u) ]}
          | None => ∅
          end), w)
  | model_update_avatar url uid => fun w =>
      (Returned tt,
       change_user uid
         (fun u => User.mk (User.id u) (User.phone u) (User.nickname u)
                     (User.password u) (User.pwd_key u) url
                     (User.token u) (User.token_expires_in u)) w)
  | user_save u => fun w => (Returned tt, replace_user u w)
  | helper_secretPassword password => fun w =>
      (Returned ("k2", sign "k2" (text password)), w)
  | helper_isExpired expires => fun w => (Returned (expires <? now w), w)
  | ctx_getFileStream => fun w => (Returned 0%nat, w)
  | toArray stream => fun w => (Returned (upload w), w)
  | sendToWormhole stream => fun w => (Returned tt, w)
  end.

(** One registered user, whose session token expires at time 500. *)
Definition alice : User.t :=
  User.mk 1 "13800000000" "alice" (sign "k" "p1") "k" "" "tok-a" 500.

Definition w0 : world :=
  {| users := [alice];
     codes := [("13800000000", "123456"); ("13900000000", "654321")];
     sms_fault := None; disk_fault := None; now := 100;
     upload := [[Byte.x89; Byte.x50]; [Byte.x4e; Byte.x47]] |}.

(** The same world after alice's token expired. *)
Definition w_late : world :=
  {| users := users w0; codes := codes w0; sms_fault := None;
     disk_fault := None; now := 1000; upload := upload w0 |}.

Definition disk_full : Exn := mkExn "ENOSPC: no space left on device" None.


Definition w_disk_full : world :=
  {| users := users w0; codes := codes w0; sms_fault := None;
     disk_fault := Some disk_full; now := now w0; upload := upload w0 |}.

Definition fields (l : list (string * jsval)) : gmap string jsval :=
  list_to_map l.

Definition request (q b : list (string * jsval)) : Ctx :=
  {| query := fields q; request_body := fields b; userId := 1 |}.

Definition form (phone code password rePassword : string) : Ctx :=
  request [] [("phone", JStr phone); ("code", JStr code);
              ("password", JStr password); ("rePassword", JStr rePassword)].

Definition login_good : Ctx :=
  request [] [("phone", JStr "13800000000"); ("password", JStr "p1")].
Definition login_bad : Ctx :=
  request [] [("phone", JStr "13800000000"); ("password", JStr "zz")].
Definition login_bare : Ctx :=
  request [] [("phone", JStr "13800000000")].
Definition empty_request : Ctx := request [] [].
Definition code_request : Ctx := request [("phone", JStr "13800000000")] [].
Definition refresh (tok : string) : Ctx := request [("token", JStr tok)] [].

(** The same collaborators, except that the calls picked out by [sel]
    throw [e]. *)
Definition failing_on (sel : forall X : Type, call X -> bool) (e : Exn)
  : handler world :=
  fun X c w => if sel X c then (Threw e, w) else handle X c w.

Definition is_getFileStream (X : Type) (c : call X) : bool :=
  match c with
  | ctx_getFileStream => true
  | _ => false
  end.

Definition no_file : Exn := mkExn "Invalid filename" None.

Definition login_unknown : Ctx :=
  request [] [("phone", JStr "13700000000"); ("password", JStr "p1")].
Definition login_code : Ctx :=
  request [] [("phone", JStr "13800000000"); ("code", JStr "123456")].
Definition login_code_bad : Ctx :=
  request [] [("phone", JStr "13800000000"); ("code", JStr "000000")].
Definition login_both : Ctx :=
  request [] [("phone", JStr "13800000000"); ("password", JStr "p1");
              ("code", JStr "000000")].

End InMemory.

(** ** Properties of the controller *)

Section Properties.

Context {W : Type} (handle : handler W).

(** The methods that validate their input, and the validation each
    one asks for. *)
Inductive validating : Type :=
  | GetPhoneCode | Register | Login | ResetPassword.

Definition method_of (m : validating) : Ctx -> M W unit :=
  match m with
  | GetPhoneCode => getPhoneCode handle
  | Register => register handle
  | Login => login handle
  | ResetPassword => resetPassword handle
  end.

Definition validation_of (m : validating) (ctx : Ctx) : call unit :=
  match m with
  | GetPhoneCode => ctx_validate rules_phone (query ctx)
  | Register | ResetPassword => ctx_validate registerForm (request_body ctx)
  | Login => ctx_validate loginForm (request_body ctx)
  end.

(** Unfold the monad down to matches on the handler's answers. *)
Ltac expose :=
  unfold invoke, getPhoneCode, register, login, resetPassword,
    refreshToken, getProfile, uploadAvatar, exitLogin;
  unfold mbind, mret, M_bind, M_ret, try_catch, perform, logger,
    this_success, this_fail, emit, return_, new_CustomError;
  cbn.

(** Use a known answer of the handler. *)
Ltac answer H := rewrite H; cbn.

(** C7: when the validator throws, each validating method catches the
    error itself: the call settles (nothing is rethrown), the only
    response is the [invalidParam] failure, and no collaborator other
    than the validator is called. *)
Theorem validator_throw_gives_invalidParam
    (m : validating) (ctx : Ctx) (w w' : W) (e : Exn) :
  handle unit (validation_of m ctx) w = (Threw e, w') ->
  let '(r, wf, tr) := invoke (method_of m ctx) w in
  r = Returned tt /\ wf = w' /\
  responses tr = [fail (new_CustomError CustomError.invalidParam)] /\
  calls tr = [Any (validation_of m ctx)].
Proof.
  intros Hv. destruct m; cbn in Hv |- *; expose; answer Hv; auto.
Qed.

(** C10: a refresh request without a token (absent, empty, or any
    other falsy value) fails with the token error at once: the world
    is untouched, no collaborator is called, no token is issued. *)
Theorem refreshToken_missing_token (ctx : Ctx) (w : W) :
  truthy (get (query ctx) "token") = false ->
  invoke (refreshToken handle ctx) w =
    (Returned tt, w, [Fail (new_CustomError CustomError.token_error)]).
Proof.
  intros Hf. expose. answer Hf. reflexivity.
Qed.

(** C5: a registration whose [password] and [rePassword] differ gets
    the [invalidParam] failure whatever the validator says about the
    form, and nothing but the validator is called: the phone code is
    not checked, no user is looked up or created. *)
Theorem register_password_mismatch (ctx : Ctx) (w : W) :
  strict_ne (get (request_body ctx) "password")
            (get (request_body ctx) "rePassword") = true ->
  let '(r, _, tr) := invoke (register handle ctx) w in
  r = Returned tt /\
  responses tr = [fail (new_CustomError CustomError.invalidParam)] /\
  calls tr = [Any (ctx_validate registerForm (request_body ctx))].
Proof.
  intros Hne. expose.
  destruct (handle unit (ctx_validate registerForm (request_body ctx)) w)
    as [[[]|e] w'] eqn:Hv; cbn.
  - answer Hne. auto.
  - auto.
Qed.

(** C1: a validated login for a registered phone that carries a
    password.  If [checkPassword] accepts it, a token is requested
    for the user's id and returned with the success response; if it
    rejects it, the response is the [passwordError] failure and no
    token is requested. *)
Theorem login_with_password
    (ctx : Ctx) (u : User.t) (w w1 w2 w3 : W) (ok : bool) :
  let body := request_body ctx in
  handle unit (ctx_validate loginForm body) w = (Returned tt, w1) ->
  handle _ (model_findByPhone (get body "phone")) w1
    = (Returned (Some u), w2) ->
  truthy (get body "password") = true ->
  handle _ (service_checkPassword u (get body "password")) w2
    = (Returned ok, w3) ->
  (ok = true ->
   forall (tok : string) (w4 : W),
     handle _ (service_generateToken (User.id u)) w3 = (Returned tok, w4) ->
     let '(r, wf, tr) := invoke (login handle ctx) w in
     r = Returned tt /\ wf = w4 /\
     responses tr = [success (Some "登陆成功") (Some (data_token tok))] /\
     tokens_issued tr = [User.id u] /\
     tr = [Called (ctx_validate loginForm body) (Returned tt);
           Called (model_findByPhone (get body "phone")) (Returned (Some u));
           Called (service_checkPassword u (get body "password"))
                  (Returned true);
           Called (service_generateToken (User.id u)) (Returned tok);
           Success (Some "登陆成功") (Some (data_token tok));
           Logged info [LText "用户 %d 登陆成功"; LNum (User.id u)]])
  /\
  (ok = false ->
   let '(r, wf, tr) := invoke (login handle ctx) w in
   r = Returned tt /\ wf = w3 /\
   responses tr = [fail (new_CustomError CustomError.login_passwordError)] /\
   tokens_issued tr = [] /\
   tr = [Called (ctx_validate loginForm body) (Returned tt);
         Called (model_findByPhone (get body "phone")) (Returned (Some u));
         Called (service_checkPassword u (get body "password"))
                (Returned false);
         Fail (new_CustomError CustomError.login_passwordError)]).
Proof.
  intros body Hv Hu Hp Hc. subst body. split; intros ->.
  - intros tok w4 Hg. expose.
    answer Hv. answer Hu. answer Hp. answer Hc. answer Hg. auto.
  - expose. answer Hv. answer Hu. answer Hp. answer Hc. auto.
Qed.

(** C9: a validated login for a registered phone whose body has
    neither a truthy [password] nor a truthy [code] skips both
    credential checks and still requests and returns a token for the
    user's id. *)
Theorem login_without_credentials
    (ctx : Ctx) (u : User.t) (w w1 w2 w3 : W) (tok : string) :
  let body := request_body ctx in
  handle unit (ctx_validate loginForm body) w = (Returned tt, w1) ->
  handle _ (model_findByPhone (get body "phone")) w1
    = (Returned (Some u), w2) ->
  truthy (get body "password") = false ->
  truthy (get body "code") = false ->
  handle _ (service_generateToken (User.id u)) w2 = (Returned tok, w3) ->
  invoke (login handle ctx) w =
    (Returned tt, w3,
     [Called (ctx_validate loginForm body) (Returned tt);
      Called (model_findByPhone (get body "phone")) (Returned (Some u));
      Called (service_generateToken (User.id u)) (Returned tok);
      Success (Some "登陆成功") (Some (data_token tok));
      Logged info [LText "用户 %d 登陆成功"; LNum (User.id u)]]).
Proof.
  intros body Hv Hu Hp Hc Hg. subst body. expose.
  answer Hv. answer Hu. answer Hp. answer Hc. answer Hg. reflexivity.
Qed.

(** C4: a validated registration with matching passwords and a
    correct phone code.  If the phone already has a user, the
    response is the [registered] failure and [createUser] is not
    called; if it has none, the user is created and its id and
    nickname are returned. *)
Theorem register_existing_or_new
    (ctx : Ctx) (w w1 w2 w3 : W) (found : option User.t) :
  let body := request_body ctx in
  handle unit (ctx_validate registerForm body) w = (Returned tt, w1) ->
  strict_ne (get body "password") (get body "rePassword") = false ->
  handle _ (service_checkPhoneCode (get body "phone") (get body "code")) w1
    = (Returned true, w2) ->
  handle _ (model_findByPhone (get body "phone")) w2
    = (Returned found, w3) ->
  (forall existing : User.t,
     found = Some existing ->
     invoke (register handle ctx) w =
       (Returned tt, w3,
        [Called (ctx_validate registerForm body) (Returned tt);
         Called (service_checkPhoneCode (get body "phone") (get body "code"))
                (Returned true);
         Called (model_findByPhone (get body "phone"))
                (Returned (Some existing));
         Fail (new_CustomError CustomError.register_registered)]))
  /\
  (found = None ->
   forall (created : User.t) (w4 : W),
     handle _ (service_createUser (get body "phone") (get body "password")) w3
       = (Returned created, w4) ->
     invoke (register handle ctx) w =
       (Returned tt, w4,
        [Called (ctx_validate registerForm body) (Returned tt);
         Called (service_checkPhoneCode (get body "phone") (get body "code"))
                (Returned true);
         Called (model_findByPhone (get body "phone")) (Returned None);
         Called (service_createUser (get body "phone") (get body "password"))
                (Returned created);
         Success (Some "创建用户成功")
           (Some (data_user (User.id created) (User.nickname created)));
         Logged info [LText "用户 %s 创建成功，id 为 %d";
                      LText (User.nickname created);
                      LNum (User.id created)]])).
Proof.
  intros body Hv Hp Hc Hu. subst body. split.
  - intros existing ->. expose.
    answer Hv. answer Hp. answer Hc. answer Hu. reflexivity.
  - intros -> created w4 Hn. expose.
    answer Hv. answer Hp. answer Hc. answer Hu. answer Hn. reflexivity.
Qed.

(** C6: a validated password reset with matching passwords.  Without
    a user for the phone the response is the [unRegistered] failure;
    with a user and a wrong phone code it is the phone-code failure;
    otherwise the key and signed hash derived from the new password
    are both set on the user record, the record is saved, and the
    response is a success. *)
Theorem resetPassword_cases (ctx : Ctx) (w w1 : W) :
  let body := request_body ctx in
  let phone := get body "phone" in
  let code := get body "code" in
  let password := get body "password" in
  handle unit (ctx_validate registerForm body) w = (Returned tt, w1) ->
  strict_ne password (get body "rePassword") = false ->
  (forall w2 : W,
     handle _ (model_findByPhone phone) w1 = (Returned None, w2) ->
     invoke (resetPassword handle ctx) w =
       (Returned tt, w2,
        [Called (ctx_validate registerForm body) (Returned tt);
         Called (model_findByPhone phone) (Returned None);
         Fail (new_CustomError CustomError.login_unRegistered)]))
  /\
  (forall (u : User.t) (w2 w3 : W),
     handle _ (model_findByPhone phone) w1 = (Returned (Some u), w2) ->
     handle _ (service_checkPhoneCode phone code) w2 = (Returned false, w3) ->
     invoke (resetPassword handle ctx) w =
       (Returned tt, w3,
        [Called (ctx_validate registerForm body) (Returned tt);
         Called (model_findByPhone phone) (Returned (Some u));
         Called (service_checkPhoneCode phone code) (Returned false);
         Fail (new_CustomError CustomError.phoneCode_errorCode)]))
  /\
  (forall (u : User.t) (w2 w3 w4 w5 : W) (secret signedPwd : string),
     handle _ (model_findByPhone phone) w1 = (Returned (Some u), w2) ->
     handle _ (service_checkPhoneCode phone code) w2 = (Returned true, w3) ->
     handle _ (helper_secretPassword password) w3
       = (Returned (secret, signedPwd), w4) ->
     let u' := User.set_password signedPwd (User.set_pwd_key secret u) in
     handle _ (user_save u') w4 = (Returned tt, w5) ->
     User.pwd_key u' = secret /\ User.password u' = signedPwd /\
     invoke (resetPassword handle ctx) w =
       (Returned tt, w5,
        [Called (ctx_validate registerForm body) (Returned tt);
         Called (model_findByPhone phone) (Returned (Some u));
         Called (service_checkPhoneCode phone code) (Returned true);
         Called (helper_secretPassword password)
                (Returned (secret, signedPwd));
         Called (user_save u') (Returned tt);
         Success None None;
         Logged info [LText "用户 %d 修改密码"; LNum (User.id u)]])).
Proof.
  intros body phone code password Hv Hp.
  subst body phone code password.
  split; [|split].
  - intros w2 Hu. expose. answer Hv. answer Hp. answer Hu. reflexivity.
  - intros u w2 w3 Hu Hc. expose.
    answer Hv. answer Hp. answer Hu. answer Hc. reflexivity.
  - intros u w2 w3 w4 w5 secret signedPwd Hu Hc Hs u' Hsave.
    subst u'. split; [reflexivity|]. split; [reflexivity|]. expose.
    answer Hv. answer Hp. answer Hu. answer Hc. answer Hs.
    cbn in Hsave. answer Hsave. reflexivity.
Qed.

(** C2: a refresh request that carries a token.  If no user owns the
    token the response is the token error; if a user owns it and it
    has expired the response is the [expired] failure; in neither
    case is a token requested.  If a user owns it and it has not
    expired, a token is requested for that user's id and returned.
    Conversely, whatever the collaborators answer, a token is only
    ever requested for the id of a user who owns the supplied token
    and whose token has not expired. *)
Theorem refreshToken_cases (ctx : Ctx) (w : W) :
  let token := get (query ctx) "token" in
  (truthy token = true ->
   (forall w1 : W,
      handle _ (model_findOne_token token) w = (Returned None, w1) ->
      let '(r, wf, tr) := invoke (refreshToken handle ctx) w in
      r = Returned tt /\ wf = w1 /\
      responses tr = [fail (new_CustomError CustomError.token_error)] /\
      tokens_issued tr = [])
   /\
   (forall (u : User.t) (w1 w2 : W),
      handle _ (model_findOne_token token) w = (Returned (Some u), w1) ->
      handle _ (helper_isExpired (User.token_expires_in u)) w1
        = (Returned true, w2) ->
      let '(r, wf, tr) := invoke (refreshToken handle ctx) w in
      r = Returned tt /\ wf = w2 /\
      responses tr = [fail (new_CustomError CustomError.token_expired)] /\
      tokens_issued tr = [])
   /\
   (forall (u : User.t) (w1 w2 w3 : W) (tok : string),
      handle _ (model_findOne_token token) w = (Returned (Some u), w1) ->
      handle _ (helper_isExpired (User.token_expires_in u)) w1
        = (Returned false, w2) ->
      handle _ (service_generateToken (User.id u)) w2 = (Returned tok, w3) ->
      invoke (refreshToken handle ctx) w =
        (Returned tt, w3,
         [Logged info [LText "刷新 token"];
          Called (model_findOne_token token) (Returned (Some u));
          Called (helper_isExpired (User.token_expires_in u))
                 (Returned false);
          Called (service_generateToken (User.id u)) (Returned tok);
          Success (Some "刷新成功") (Some (data_token tok));
          Logged info [LText "用户 %d 刷新 token 成功";
                       LNum (User.id u)]])))
  /\
  (forall uid : Z,
     In uid (tokens_issued (invoke (refreshToken handle ctx) w).2) ->
     truthy token = true /\
     exists (u : User.t) (w1 w2 : W),
       handle _ (model_findOne_token token) w = (Returned (Some u), w1) /\
       handle _ (helper_isExpired (User.token_expires_in u)) w1
         = (Returned false, w2) /\
       uid = User.id u).
Proof.
  intros token. subst token. split.
  - intros Ht. split; [|split].
    + intros w1 Hu. expose. answer Ht. answer Hu. auto.
    + intros u w1 w2 Hu He. expose. answer Ht. answer Hu. answer He. auto.
    + intros u w1 w2 w3 tok Hu He Hg. expose.
      answer Ht. answer Hu. answer He. answer Hg. reflexivity.
  - intros uid. expose.
    destruct (truthy (get (query ctx) "token")) eqn:Ht; cbn;
      [|intros []].
    destruct (handle _ (model_findOne_token (get (query ctx) "token")) w)
      as [[[u|]|e] w1] eqn:Hu; cbn; try (intros []).
    destruct (handle _ (helper_isExpired (User.token_expires_in u)) w1)
      as [[[]|e] w2] eqn:He; cbn; try (intros []).
    destruct (handle _ (service_generateToken (User.id u)) w2)
      as [[tok|e] w3] eqn:Hg; cbn;
      (intros [<-|[]]; split; [reflexivity|]; exists u, w1, w2; auto).
Qed.


(** What [uploadAvatar] does once the avatar store has thrown: the
    [catch] block drains the stream and reports the upload error,
    and the method then goes on past the block with [fileName] still
    unset. *)
Lemma uploadAvatar_after_store_failure
    (ctx : Ctx) (w w1 w2 w3 w4 w5 : W) (stream : Stream)
    (parts : list Buffer) (e : Exn) :
  let url := "/public/uploads/avatar/undefined" in
  handle _ ctx_getFileStream w = (Returned stream, w1) ->
  handle _ (toArray stream) w1 = (Returned parts, w2) ->
  handle _ (service_saveAvatar (Buffer_concat parts) (userId ctx)) w2
    = (Threw e, w3) ->
  handle _ (sendToWormhole stream) w3 = (Returned tt, w4) ->
  handle _ (model_update_avatar url (userId ctx)) w4 = (Returned tt, w5) ->
  invoke (uploadAvatar handle ctx) w =
    (Returned tt, w5,
     [Logged info [LText "用户 %d 上传头像"; LNum (userId ctx)];
      Called ctx_getFileStream (Returned stream);
      Called (toArray stream) (Returned parts);
      Called (service_saveAvatar (Buffer_concat parts) (userId ctx))
             (Threw e);
      Called (sendToWormhole stream) (Returned tt);
      Fail (new_CustomError CustomError.uploadError);
      Logged error [LErr e];
      Called (model_update_avatar url (userId ctx)) (Returned tt);
      Success (Some "修改成功") (Some (data_url url));
      Logged info [LText "修改头像成功"]]).
Proof.
  intros url Hf Ha Hs Hd Hu. subst url. expose.
  answer Hf. answer Ha. answer Hs. answer Hd.
  change (String.append "/public/uploads/avatar/" "undefined")
    with "/public/uploads/avatar/undefined".
  cbn in Hu. answer Hu. reflexivity.
Qed.

(** *** Properties that hold whatever the collaborators answer *)

(** Split on every answer the handler can give and on every test the
    method makes on the request. *)
Ltac crunch :=
  repeat (cbn;
    match goal with
    | |- context [handle ?X ?c ?w] =>
        destruct (handle X c w) as [[?|?] ?] eqn:?
    | |- context [truthy ?v] => destruct (truthy v) eqn:?
    | |- context [strict_ne ?a ?b] => destruct (strict_ne a b) eqn:?
    | x : unit |- _ => destruct x
    | x : bool |- _ => destruct x
    | x : option _ |- _ => destruct x
    | x : (_ * _)%type |- _ => destruct x
    end).

(** Find an event in an explicit trace. *)
Ltac in_trace := simpl; repeat first [left; reflexivity | right].

(** Both [try] blocks of [getPhoneCode] catch: whether the validator
    and the SMS service return or throw, the call settles, with
    exactly one response written. *)
Theorem getPhoneCode_never_rejects (ctx : Ctx) (w : W) :
  let '(r, _, tr) := invoke (getPhoneCode handle ctx) w in
  r = Returned tt /\ exists resp : response, responses tr = [resp].
Proof.
  expose. crunch; eauto.
Qed.

(** Every method but [uploadAvatar] answers once or rejects: a settled
    call has written exactly one response, a rejected call none, and
    it rejects with the error of its last collaborator call. *)
Theorem methods_answer_once_or_reject (ctx : Ctx) :
  one_response_or_reject (getPhoneCode handle ctx) /\
  one_response_or_reject (register handle ctx) /\
  one_response_or_reject (login handle ctx) /\
  one_response_or_reject (resetPassword handle ctx) /\
  one_response_or_reject (refreshToken handle ctx) /\
  one_response_or_reject (getProfile handle ctx) /\
  one_response_or_reject (exitLogin handle ctx).
Proof.
  unfold one_response_or_reject.
  repeat split; intros w; expose; crunch;
    first [ eexists; reflexivity
          | split; [reflexivity | eexists _, _; reflexivity] ].
Qed.

(** Session tokens come from [login] and [refreshToken] only, and at
    most one per request: no other method ever asks the service for a
    token. *)
Theorem tokens_only_from_login_and_refresh (ctx : Ctx) (w : W) :
  tokens_issued (invoke (getPhoneCode handle ctx) w).2 = [] /\
  tokens_issued (invoke (register handle ctx) w).2 = [] /\
  tokens_issued (invoke (resetPassword handle ctx) w).2 = [] /\
  tokens_issued (invoke (getProfile handle ctx) w).2 = [] /\
  tokens_issued (invoke (uploadAvatar handle ctx) w).2 = [] /\
  tokens_issued (invoke (exitLogin handle ctx) w).2 = [] /\
  (length (tokens_issued (invoke (login handle ctx) w).2) <= 1)%nat /\
  (length (tokens_issued (invoke (refreshToken handle ctx) w).2) <= 1)%nat.
Proof.
  repeat split; expose; crunch; auto.
Qed.

(** *** getPhoneCode and login *)

(** A validated code request whose SMS call returns: the phone sent to
    the service is the [phone] of the query, and the response is a
    bare success. *)
Theorem getPhoneCode_sent (ctx : Ctx) (w w1 w2 : W) :
  handle unit (ctx_validate rules_phone (query ctx)) w = (Returned tt, w1) ->
  handle unit (service_sendPhoneCode (get (query ctx) "phone")) w1
    = (Returned tt, w2) ->
  invoke (getPhoneCode handle ctx) w =
    (Returned tt, w2,
     [Called (ctx_validate rules_phone (query ctx)) (Returned tt);
      Called (service_sendPhoneCode (get (query ctx) "phone")) (Returned tt);
      Success None None;
      Logged info [LText "成功发送验证码"]]).
Proof.
  intros Hv Hs. expose. answer Hv. answer Hs. reflexivity.
Qed.

(** A validated login for a phone without a user fails with
    [unRegistered] before any credential is looked at: no password
    check, no code check, no token. *)
Theorem login_unregistered (ctx : Ctx) (w w1 w2 : W) :
  let body := request_body ctx in
  handle unit (ctx_validate loginForm body) w = (Returned tt, w1) ->
  handle _ (model_findByPhone (get body "phone")) w1 = (Returned None, w2) ->
  invoke (login handle ctx) w =
    (Returned tt, w2,
     [Called (ctx_validate loginForm body) (Returned tt);
      Called (model_findByPhone (get body "phone")) (Returned None);
      Fail (new_CustomError CustomError.login_unRegistered)]).
Proof.
  intros body Hv Hu. subst body. expose. answer Hv. answer Hu. reflexivity.
Qed.

(** Login by SMS code: a validated login for a registered phone with no
    password and a code.  A correct code gets a token for the user's
    id; a wrong code gets the phone-code failure and no token.  The
    password is never checked. *)
Theorem login_with_code
    (ctx : Ctx) (u : User.t) (w w1 w2 w3 : W) (ok : bool) :
  let body := request_body ctx in
  let phone := get body "phone" in
  let code := get body "code" in
  handle unit (ctx_validate loginForm body) w = (Returned tt, w1) ->
  handle _ (model_findByPhone phone) w1 = (Returned (Some u), w2) ->
  truthy (get body "password") = false ->
  truthy code = true ->
  handle _ (service_checkPhoneCode phone code) w2 = (Returned ok, w3) ->
  (ok = true ->
   forall (tok : string) (w4 : W),
     handle _ (service_generateToken (User.id u)) w3 = (Returned tok, w4) ->
     invoke (login handle ctx) w =
       (Returned tt, w4,
        [Called (ctx_validate loginForm body) (Returned tt);
         Called (model_findByPhone phone) (Returned (Some u));
         Called (service_checkPhoneCode phone code) (Returned true);
         Called (service_generateToken (User.id u)) (Returned tok);
         Success (Some "登陆成功") (Some (data_token tok));
         Logged info [LText "用户 %d 登陆成功"; LNum (User.id u)]]))
  /\
  (ok = false ->
   invoke (login handle ctx) w =
     (Returned tt, w3,
      [Called (ctx_validate loginForm body) (Returned tt);
       Called (model_findByPhone phone) (Returned (Some u));
       Called (service_checkPhoneCode phone code) (Returned false);
       Fail (new_CustomError CustomError.phoneCode_errorCode)])).
Proof.
  intros body phone code Hv Hu Hp Hc Hk. subst body phone code.
  split; intros ->.
  - intros tok w4 Hg. expose.
    answer Hv. answer Hu. answer Hp. answer Hc. answer Hk. answer Hg.
    reflexivity.
  - expose. answer Hv. answer Hu. answer Hp. answer Hc. answer Hk.
    reflexivity.
Qed.

(** Whatever the collaborators answer, [login] asks for a token only
    for the id of the user found under the phone, after the form
    validated, and after the credential that was supplied checked out:
    the password if there is one, else the code if there is one. *)
Theorem login_token_needs_check (ctx : Ctx) (w : W) (uid : Z) :
  let body := request_body ctx in
  let phone := get body "phone" in
  let code := get body "code" in
  let password := get body "password" in
  let tr := (invoke (login handle ctx) w).2 in
  In uid (tokens_issued tr) ->
  exists u : User.t,
    uid = User.id u /\
    In (Called (ctx_validate loginForm body) (Returned tt)) tr /\
    In (Called (model_findByPhone phone) (Returned (Some u))) tr /\
    (truthy password = true ->
     In (Called (service_checkPassword u password) (Returned true)) tr) /\
    (truthy password = false -> truthy code = true ->
     In (Called (service_checkPhoneCode phone code) (Returned true)) tr).
Proof.
  intros body phone code password tr. subst body phone code password tr.
  expose. crunch; intros Hin; simpl in Hin;
    try contradiction; destruct Hin as [<-|[]];
    eexists; (split; [reflexivity|]);
    repeat split; try discriminate; intros; in_trace.
Qed.

(** A password in the body takes precedence over a code: when
    [password] is truthy, [login] never checks the phone code, whatever
    the body's [code] is. *)
Theorem login_password_takes_precedence (ctx : Ctx) (w : W) :
  truthy (get (request_body ctx) "password") = true ->
  code_checks (invoke (login handle ctx) w).2 = [].
Proof.
  intros Hp. expose. crunch; try reflexivity; try discriminate.
Qed.

(** The token in a success response of [login] or [refreshToken] is
    one the token service returned during that very call. *)
Theorem returned_token_was_generated
    (ctx : Ctx) (w : W) (msg : option string) (data : option payload) :
  (In (success msg data) (responses (invoke (login handle ctx) w).2) ->
   exists (uid : Z) (tok : string),
     data = Some (data_token tok) /\
     In (Called (service_generateToken uid) (Returned tok))
        (invoke (login handle ctx) w).2)
  /\
  (In (success msg data) (responses (invoke (refreshToken handle ctx) w).2) ->
   exists (uid : Z) (tok : string),
     data = Some (data_token tok) /\
     In (Called (service_generateToken uid) (Returned tok))
        (invoke (refreshToken handle ctx) w).2).
Proof.
  split; expose; crunch; intros Hin; simpl in Hin;
    repeat match goal with
           | H : _ \/ _ |- _ => destruct H
           | H : False |- _ => destruct H
           | H : fail _ = success _ _ |- _ => discriminate H
           | H : success _ _ = success _ _ |- _ =>
               inversion H; subst; clear H
           end;
    eexists _, _; (split; [reflexivity|]); in_trace.
Qed.

(** *** register and resetPassword *)

(** A validated registration with matching passwords and a wrong phone
    code fails with the phone-code error at once: the user store is
    neither read nor written. *)
Theorem register_wrong_code (ctx : Ctx) (w w1 w2 : W) :
  let body := request_body ctx in
  handle unit (ctx_validate registerForm body) w = (Returned tt, w1) ->
  strict_ne (get body "password") (get body "rePassword") = false ->
  handle _ (service_checkPhoneCode (get body "phone") (get body "code")) w1
    = (Returned false, w2) ->
  invoke (register handle ctx) w =
    (Returned tt, w2,
     [Called (ctx_validate registerForm body) (Returned tt);
      Called (service_checkPhoneCode (get body "phone") (get body "code"))
             (Returned false);
      Fail (new_CustomError CustomError.phoneCode_errorCode)]).
Proof.
  intros body Hv Hp Hc. subst body. expose.
  answer Hv. answer Hp. answer Hc. reflexivity.
Qed.

(** Whatever the collaborators answer, [register] asks for a user to
    be created only with the phone and password of the body, and only
    after the form validated, the two passwords were identical, the
    phone code was found correct and no user was found under the
    phone. *)
Theorem register_creates_only_when
    (ctx : Ctx) (w : W) (p pw : jsval) :
  let body := request_body ctx in
  let tr := (invoke (register handle ctx) w).2 in
  In (p, pw) (users_created tr) ->
  p = get body "phone" /\ pw = get body "password" /\
  strict_ne (get body "password") (get body "rePassword") = false /\
  In (Called (ctx_validate registerForm body) (Returned tt)) tr /\
  In (Called (service_checkPhoneCode (get body "phone") (get body "code"))
             (Returned true)) tr /\
  In (Called (model_findByPhone (get body "phone")) (Returned None)) tr.
Proof.
  intros body tr. subst body tr. expose.
  crunch; intros Hin; simpl in Hin; try contradiction;
    destruct Hin as [Heq|[]]; injection Heq as <- <-;
    repeat split; in_trace.
Qed.

(** The success response of [register] reports the id and nickname of
    the user the service has just created. *)
Theorem register_success_reports_created_user
    (ctx : Ctx) (w : W) (msg : option string) (data : option payload) :
  let body := request_body ctx in
  let tr := (invoke (register handle ctx) w).2 in
  In (success msg data) (responses tr) ->
  exists created : User.t,
    data = Some (data_user (User.id created) (User.nickname created)) /\
    In (Called (service_createUser (get body "phone") (get body "password"))
               (Returned created)) tr.
Proof.
  intros body tr. subst body tr. expose.
  crunch; intros Hin; simpl in Hin;
    repeat match goal with
           | H : _ \/ _ |- _ => destruct H
           | H : False |- _ => destruct H
           | H : fail _ = success _ _ |- _ => discriminate H
           | H : success _ _ = success _ _ |- _ =>
               inversion H; subst; clear H
           end;
    eexists; (split; [reflexivity|]); in_trace.
Qed.

(** Whatever the collaborators answer, the record [resetPassword]
    saves is the user found under the phone with a new key and hash,
    both as [secretPassword] derived them from the body's password,
    and nothing else changed; and it is saved only after the passwords
    were identical and the phone code was found correct. *)
Theorem resetPassword_saves_only_new_secret
    (ctx : Ctx) (w : W) (saved : User.t) :
  let body := request_body ctx in
  let tr := (invoke (resetPassword handle ctx) w).2 in
  In saved (users_saved tr) ->
  strict_ne (get body "password") (get body "rePassword") = false /\
  exists (u : User.t) (secret signedPwd : string),
    In (Called (model_findByPhone (get body "phone")) (Returned (Some u))) tr /\
    In (Called (service_checkPhoneCode (get body "phone") (get body "code"))
               (Returned true)) tr /\
    In (Called (helper_secretPassword (get body "password"))
               (Returned (secret, signedPwd))) tr /\
    User.pwd_key saved = secret /\ User.password saved = signedPwd /\
    User.id saved = User.id u /\ User.phone saved = User.phone u /\
    User.nickname saved = User.nickname u /\
    User.avatar saved = User.avatar u /\ User.token saved = User.token u /\
    User.token_expires_in saved = User.token_expires_in u.
Proof.
  intros body tr. subst body tr. expose.
  crunch; intros Hin; simpl in Hin; try contradiction;
    destruct Hin as [<-|[]]; (split; [reflexivity|]);
    eexists _, _, _;
    (split; [in_trace|]); (split; [in_trace|]); (split; [in_trace|]);
    repeat split.
Qed.

(** *** uploadAvatar, getProfile and exitLogin *)

(** When the framework cannot provide the file stream, [uploadAvatar]
    reports an upload error carrying the message of the error it
    caught and stops: nothing is read, stored or written to the user
    record. *)
Theorem uploadAvatar_no_stream (ctx : Ctx) (w w1 : W) (e : Exn) :
  handle _ ctx_getFileStream w = (Threw e, w1) ->
  invoke (uploadAvatar handle ctx) w =
    (Returned tt, w1,
     [Logged info [LText "用户 %d 上传头像"; LNum (userId ctx)];
      Called ctx_getFileStream (Threw e);
      Fail (Custom (CustomError.new_with CustomError.uploadError
                      (message e)))]).
Proof.
  intros Hf. expose. answer Hf. reflexivity.
Qed.

(** A successful upload: the chunks read from the stream are joined
    and stored for the current user, the avatar path written to that
    user's record is the public upload directory followed by the file
    name the store returned, the same path is the [url] of the
    response, and the stream is not drained. *)
Theorem uploadAvatar_stored
    (ctx : Ctx) (w w1 w2 w3 w4 : W) (stream : Stream)
    (parts : list Buffer) (stored : AvatarInfo) :
  let url := String.append "/public/uploads/avatar/" (fileName stored) in
  handle _ ctx_getFileStream w = (Returned stream, w1) ->
  handle _ (toArray stream) w1 = (Returned parts, w2) ->
  handle _ (service_saveAvatar (Buffer_concat parts) (userId ctx)) w2
    = (Returned stored, w3) ->
  handle _ (model_update_avatar url (userId ctx)) w3 = (Returned tt, w4) ->
  invoke (uploadAvatar handle ctx) w =
    (Returned tt, w4,
     [Logged info [LText "用户 %d 上传头像"; LNum (userId ctx)];
      Called ctx_getFileStream (Returned stream);
      Called (toArray stream) (Returned parts);
      Called (service_saveAvatar (Buffer_concat parts) (userId ctx))
             (Returned stored);
      Logged info [LText "成功保存图片，图片名称为：%s";
                   LText (fileName stored)];
      Called (model_update_avatar url (userId ctx)) (Returned tt);
      Success (Some "修改成功") (Some (data_url url));
      Logged info [LText "修改头像成功"]]).
Proof.
  intros url Hf Ha Hs Hu. subst url. expose.
  answer Hf. answer Ha. answer Hs. cbn in Hu. answer Hu. reflexivity.
Qed.

(** Whatever the collaborators answer, [uploadAvatar] writes at most
    one avatar path, only to the record of the current user, and the
    path always lies in the public upload directory. *)
Theorem uploadAvatar_updates_own_record (ctx : Ctx) (w : W) :
  let tr := (invoke (uploadAvatar handle ctx) w).2 in
  (length (avatar_updates tr) <= 1)%nat /\
  forall (url : string) (uid : Z),
    In (url, uid) (avatar_updates tr) ->
    uid = userId ctx /\
    exists name : string, url = String.append "/public/uploads/avatar/" name.
Proof.
  intros tr. subst tr. expose.
  crunch; (split; [auto|]); intros url uid Hin; simpl in Hin;
    try contradiction; destruct Hin as [Heq|[]]; injection Heq as <- <-;
    (split; [reflexivity | eexists; reflexivity]).
Qed.

(** Whatever the collaborators answer, [uploadAvatar] hands the stream
    to [sendToWormhole] exactly when reading it or storing it threw,
    and the stream it drains is the one the framework gave it. *)
Theorem uploadAvatar_drains_on_failure_only (ctx : Ctx) (w : W) :
  let tr := (invoke (uploadAvatar handle ctx) w).2 in
  (store_threw tr = true ->
   exists s : Stream,
     In (Called ctx_getFileStream (Returned s)) tr /\ drained tr = [s]) /\
  (store_threw tr = false -> drained tr = []).
Proof.
  intros tr. subst tr. expose.
  crunch; split; intros Ht; try discriminate Ht; try reflexivity;
    eexists; (split; [in_trace | reflexivity]).
Qed.

(** [getProfile] and [exitLogin] act on the current user only: the one
    collaborator call each makes is for [ctx.userId], and a profile
    in a response is the one the model returned for that id. *)
Theorem session_methods_use_current_user
    (ctx : Ctx) (w : W) (msg : option string) (data : option payload) :
  calls (invoke (getProfile handle ctx) w).2
    = [Any (model_getProfile (userId ctx))] /\
  calls (invoke (exitLogin handle ctx) w).2
    = [Any (service_clearToken (userId ctx))] /\
  (In (success msg data) (responses (invoke (getProfile handle ctx) w).2) ->
   exists p : gmap string jsval,
     data = Some (data_profile p) /\
     In (Called (model_getProfile (userId ctx)) (Returned p))
        (invoke (getProfile handle ctx) w).2).
Proof.
  split; [|split]; expose; crunch; try reflexivity;
    intros Hin; simpl in Hin;
    repeat match goal with
           | H : _ \/ _ |- _ => destruct H
           | H : False |- _ => destruct H
           | H : success _ _ = success _ _ |- _ =>
               inversion H; subst; clear H
           end;
    eexists; (split; [reflexivity|]); in_trace.
Qed.

End Properties.

(** ** The avatar upload when the store fails *)

(** C3: an upload for user 1 whose avatar is still empty, against a
    store that throws.  The stream is drained and the upload error is
    reported, but the method does not stop there: it goes on to write
    the avatar path built from the unset file name into the user
    record, and answers with a success. *)
Theorem uploadAvatar_store_failure_overwrites_avatar :
  let w := InMemory.w_disk_full in
  let url := "/public/uploads/avatar/undefined" in
  let '(r, wf, tr) :=
    invoke (uploadAvatar InMemory.handle InMemory.empty_request) w in
  r = Returned tt /\
  tr = [Logged info [LText "用户 %d 上传头像"; LNum 1];
        Called ctx_getFileStream (Returned 0%nat);
        Called (toArray 0%nat) (Returned (InMemory.upload w));
        Called (service_saveAvatar
                  [Byte.x89; Byte.x50; Byte.x4e; Byte.x47] 1)
               (Threw InMemory.disk_full);
        Called (sendToWormhole 0%nat) (Returned tt);
        Fail (new_CustomError CustomError.uploadError);
        Logged error [LErr InMemory.disk_full];
        Called (model_update_avatar url 1) (Returned tt);
        Success (Some "修改成功") (Some (data_url url));
        Logged info [LText "修改头像成功"]] /\
  List.map User.avatar (InMemory.users w) = [""] /\
  List.map User.avatar (InMemory.users wf) = [url].
Proof.
  intros w url.
  pose proof (uploadAvatar_after_store_failure InMemory.handle
    InMemory.empty_request w w w w w
    (InMemory.change_user 1
       (fun u => User.mk (User.id u) (User.phone u) (User.nickname u)
                   (User.password u) (User.pwd_key u) url
                   (User.token u) (User.token_expires_in u)) w)
    0%nat (InMemory.upload w) InMemory.disk_full
    eq_refl eq_refl eq_refl eq_refl eq_refl) as H.
  rewrite H. repeat split; vm_compute; reflexivity.
Qed.

(** ** The theorems at work on concrete requests *)

Section Witnesses.

Import InMemory.

Local Ltac by_running := vm_compute; reflexivity.

(** Read the goal off an instance [H] of a theorem. *)
Local Ltac from H :=
  vm_compute in H |- *; decompose [and] H; repeat split; assumption.

(** Four malformed requests, one per validating method. *)
Lemma validator_throw_gives_invalidParam_witness :
  let rejected m :=
    responses (invoke (method_of handle m empty_request) w0).2
      = [fail (new_CustomError CustomError.invalidParam)] in
  rejected GetPhoneCode /\ rejected Register /\
  rejected Login /\ rejected ResetPassword.
Proof.
  cbv zeta. split; [|split; [|split]].
  - pose proof (validator_throw_gives_invalidParam handle GetPhoneCode
      empty_request w0 w0 _ ltac:(by_running)) as H.
    from H.
  - pose proof (validator_throw_gives_invalidParam handle Register
      empty_request w0 w0 _ ltac:(by_running)) as H.
    from H.
  - pose proof (validator_throw_gives_invalidParam handle Login
      empty_request w0 w0 _ ltac:(by_running)) as H.
    from H.
  - pose proof (validator_throw_gives_invalidParam handle ResetPassword
      empty_request w0 w0 _ ltac:(by_running)) as H.
    from H.
Defined.

(** A refresh without any query parameter, and one with [token=]. *)
Lemma refreshToken_missing_token_witness :
  invoke (refreshToken handle empty_request) w0
    = (Returned tt, w0, [Fail (new_CustomError CustomError.token_error)]) /\
  invoke (refreshToken handle (refresh "")) w0
    = (Returned tt, w0, [Fail (new_CustomError CustomError.token_error)]).
Proof.
  split.
  - apply (refreshToken_missing_token handle empty_request w0). by_running.
  - apply (refreshToken_missing_token handle (refresh "") w0). by_running.
Defined.

(** A well-formed registration form whose two passwords differ, and
    a malformed one whose two passwords differ. *)
Lemma register_password_mismatch_witness :
  responses (invoke (register handle
                       (form "13900000000" "654321" "p1" "p2")) w0).2
    = [fail (new_CustomError CustomError.invalidParam)] /\
  responses (invoke (register handle
                       (request [] [("password", JStr "p1")])) w0).2
    = [fail (new_CustomError CustomError.invalidParam)].
Proof.
  split.
  - pose proof (register_password_mismatch handle
      (form "13900000000" "654321" "p1" "p2") w0 ltac:(by_running)) as H.
    from H.
  - pose proof (register_password_mismatch handle
      (request [] [("password", JStr "p1")]) w0 ltac:(by_running)) as H.
    from H.
Defined.

(** Alice logs in with her password, then with a wrong one. *)
Lemma login_with_password_witness :
  (let '(_, _, tr) := invoke (login handle login_good) w0 in
   responses tr = [success (Some "登陆成功")
                     (Some (data_token "session-of-13800000000"))] /\
   tokens_issued tr = [1]) /\
  (let '(_, _, tr) := invoke (login handle login_bad) w0 in
   responses tr = [fail (new_CustomError CustomError.login_passwordError)] /\
   tokens_issued tr = []).
Proof.
  split.
  - pose proof (proj1 (login_with_password handle login_good alice
      w0 w0 w0 w0 true ltac:(by_running) ltac:(by_running)
      ltac:(by_running) ltac:(by_running)) eq_refl
      "session-of-13800000000" _ ltac:(by_running)) as H.
    from H.
  - pose proof (proj2 (login_with_password handle login_bad alice
      w0 w0 w0 w0 false ltac:(by_running) ltac:(by_running)
      ltac:(by_running) ltac:(by_running)) eq_refl) as H.
    from H.
Defined.

(** Alice logs in with her phone number alone. *)
Lemma login_without_credentials_witness :
  responses (invoke (login handle login_bare) w0).2
    = [success (Some "登陆成功")
         (Some (data_token "session-of-13800000000"))] /\
  calls (invoke (login handle login_bare) w0).2
    = [Any (ctx_validate loginForm (request_body login_bare));
       Any (model_findByPhone (JStr "13800000000"));
       Any (service_generateToken 1)].
Proof.
  pose proof (login_without_credentials handle login_bare alice
    w0 w0 w0 _ "session-of-13800000000" ltac:(by_running)
    ltac:(by_running) ltac:(by_running) ltac:(by_running)
    ltac:(by_running)) as H.
  rewrite H. split; by_running.
Defined.

(** A registration for alice's phone, and one for a new phone. *)
Lemma register_existing_or_new_witness :
  (let '(_, wf, tr) :=
     invoke (register handle (form "13800000000" "123456" "p1" "p1")) w0 in
   responses tr = [fail (new_CustomError CustomError.register_registered)]
   /\ List.map User.id (users wf) = [1]) /\
  (let '(_, wf, tr) :=
     invoke (register handle (form "13900000000" "654321" "p2" "p2")) w0 in
   responses tr = [success (Some "创建用户成功")
                     (Some (data_user 2 "13900000000"))]
   /\ List.map User.id (users wf) = [1; 2]).
Proof.
  split.
  - pose proof (proj1 (register_existing_or_new handle
      (form "13800000000" "123456" "p1" "p1") w0 w0 w0 w0 (Some alice)
      ltac:(by_running) ltac:(by_running) ltac:(by_running)
      ltac:(by_running)) alice eq_refl) as H.
    rewrite H. split; by_running.
  - pose proof (proj2 (register_existing_or_new handle
      (form "13900000000" "654321" "p2" "p2") w0 w0 w0 w0 None
      ltac:(by_running) ltac:(by_running) ltac:(by_running)
      ltac:(by_running)) eq_refl _ _ eq_refl) as H.
    rewrite H. split; by_running.
Defined.

(** A reset for an unknown phone, one with a wrong code, and one
    that goes through. *)
Lemma resetPassword_cases_witness :
  responses (invoke (resetPassword handle
                       (form "13900000000" "654321" "n" "n")) w0).2
    = [fail (new_CustomError CustomError.login_unRegistered)] /\
  responses (invoke (resetPassword handle
                       (form "13800000000" "000000" "n" "n")) w0).2
    = [fail (new_CustomError CustomError.phoneCode_errorCode)] /\
  (let '(_, wf, tr) :=
     invoke (resetPassword handle
               (form "13800000000" "123456" "n" "n")) w0 in
   responses tr = [success None None] /\
   List.map (fun u => (User.pwd_key u, User.password u)) (users wf)
     = [("k2", "k2:n")]).
Proof.
  split; [|split].
  - pose proof (proj1 (resetPassword_cases handle
      (form "13900000000" "654321" "n" "n") w0 w0
      ltac:(by_running) ltac:(by_running)) w0 ltac:(by_running)) as H.
    rewrite H. by_running.
  - pose proof (proj1 (proj2 (resetPassword_cases handle
      (form "13800000000" "000000" "n" "n") w0 w0
      ltac:(by_running) ltac:(by_running))) alice w0 w0
      ltac:(by_running) ltac:(by_running)) as H.
    rewrite H. by_running.
  - pose proof (proj2 (proj2 (resetPassword_cases handle
      (form "13800000000" "123456" "n" "n") w0 w0
      ltac:(by_running) ltac:(by_running))) alice w0 w0 w0 _ "k2" "k2:n"
      ltac:(by_running) ltac:(by_running) ltac:(by_running)
      eq_refl) as H.
    destruct H as (_ & _ & H). rewrite H. split; by_running.
Defined.

(** A refresh with a token nobody owns, with alice's token after it
    expired, and with alice's token while it is valid. *)
Lemma refreshToken_cases_witness :
  (let '(_, _, tr) := invoke (refreshToken handle (refresh "nope")) w0 in
   responses tr = [fail (new_CustomError CustomError.token_error)] /\
   tokens_issued tr = []) /\
  (let '(_, _, tr) := invoke (refreshToken handle (refresh "tok-a")) w_late in
   responses tr = [fail (new_CustomError CustomError.token_expired)] /\
   tokens_issued tr = []) /\
  (let '(_, _, tr) := invoke (refreshToken handle (refresh "tok-a")) w0 in
   responses tr = [success (Some "刷新成功")
                     (Some (data_token "session-of-13800000000"))] /\
   tokens_issued tr = [1]).
Proof.
  split; [|split].
  - pose proof (proj1 (proj1 (refreshToken_cases handle (refresh "nope") w0)
      ltac:(by_running)) w0 ltac:(by_running)) as H.
    from H.
  - pose proof (proj1 (proj2 (proj1
      (refreshToken_cases handle (refresh "tok-a") w_late)
      ltac:(by_running))) alice w_late w_late
      ltac:(by_running) ltac:(by_running)) as H.
    from H.
  - pose proof (proj2 (proj2 (proj1
      (refreshToken_cases handle (refresh "tok-a") w0)
      ltac:(by_running))) alice w0 w0 _ "session-of-13800000000"
      ltac:(by_running) ltac:(by_running) eq_refl) as H.
    rewrite H. split; by_running.
Defined.


(** Membership of the head of an explicit list. *)
Local Ltac at_head := vm_compute; left; reflexivity.

(** A code request that goes through. *)
Lemma getPhoneCode_sent_witness :
  responses (invoke (getPhoneCode handle code_request) w0).2
    = [success None None].
Proof.
  pose proof (getPhoneCode_sent handle code_request w0 w0 _
    ltac:(by_running) ltac:(by_running)) as H.
  rewrite H. by_running.
Defined.

(** A login for a phone nobody registered. *)
Lemma login_unregistered_witness :
  responses (invoke (login handle login_unknown) w0).2
    = [fail (new_CustomError CustomError.login_unRegistered)].
Proof.
  pose proof (login_unregistered handle login_unknown w0 w0 w0
    ltac:(by_running) ltac:(by_running)) as H.
  rewrite H. by_running.
Defined.

(** Alice logs in with the code sent to her, then with a wrong code. *)
Lemma login_with_code_witness :
  responses (invoke (login handle login_code) w0).2
    = [success (Some "登陆成功")
         (Some (data_token "session-of-13800000000"))] /\
  responses (invoke (login handle login_code_bad) w0).2
    = [fail (new_CustomError CustomError.phoneCode_errorCode)].
Proof.
  split.
  - pose proof (proj1 (login_with_code handle login_code alice
      w0 w0 w0 w0 true ltac:(by_running) ltac:(by_running)
      ltac:(by_running) ltac:(by_running) ltac:(by_running)) eq_refl
      "session-of-13800000000" _ ltac:(by_running)) as H.
    rewrite H. by_running.
  - pose proof (proj2 (login_with_code handle login_code_bad alice
      w0 w0 w0 w0 false ltac:(by_running) ltac:(by_running)
      ltac:(by_running) ltac:(by_running) ltac:(by_running)) eq_refl) as H.
    rewrite H. by_running.
Defined.

(** The token of alice's password login was preceded by a successful
    password check. *)
Lemma login_token_needs_check_witness :
  exists u : User.t,
    1 = User.id u /\
    In (Called (service_checkPassword u
                  (get (request_body login_good) "password"))
               (Returned true))
       (invoke (login handle login_good) w0).2.
Proof.
  pose proof (login_token_needs_check handle login_good w0 1
    ltac:(at_head)) as H.
  destruct H as (u & Hid & _ & _ & Hpw & _).
  exists u. split; [exact Hid | apply Hpw; by_running].
Defined.

(** Alice's password with a wrong code beside it: the code is not
    looked at. *)
Lemma login_password_takes_precedence_witness :
  code_checks (invoke (login handle login_both) w0).2 = [].
Proof.
  exact (login_password_takes_precedence handle login_both w0
           ltac:(by_running)).
Defined.

(** The tokens alice gets from a login and from a refresh. *)
Lemma returned_token_was_generated_witness :
  let data := Some (data_token "session-of-13800000000") in
  (exists (uid : Z) (tok : string),
     data = Some (data_token tok) /\
     In (Called (service_generateToken uid) (Returned tok))
        (invoke (login handle login_good) w0).2) /\
  (exists (uid : Z) (tok : string),
     data = Some (data_token tok) /\
     In (Called (service_generateToken uid) (Returned tok))
        (invoke (refreshToken handle (refresh "tok-a")) w0).2).
Proof.
  split.
  - exact (proj1 (returned_token_was_generated handle login_good w0
             (Some "登陆成功") _) ltac:(at_head)).
  - exact (proj2 (returned_token_was_generated handle (refresh "tok-a") w0
             (Some "刷新成功") _) ltac:(at_head)).
Defined.

(** A registration for a new phone with a wrong code. *)
Lemma register_wrong_code_witness :
  let ctx := form "13900000000" "000000" "p" "p" in
  let tr := (invoke (register handle ctx) w0).2 in
  responses tr = [fail (new_CustomError CustomError.phoneCode_errorCode)] /\
  users_created tr = [].
Proof.
  pose proof (register_wrong_code handle
    (form "13900000000" "000000" "p" "p") w0 w0 w0
    ltac:(by_running) ltac:(by_running) ltac:(by_running)) as H.
  cbv zeta. rewrite H. split; by_running.
Defined.

(** The registration of a new phone. *)
Lemma register_creates_only_when_witness :
  let ctx := form "13900000000" "654321" "p2" "p2" in
  let body := request_body ctx in
  let tr := (invoke (register handle ctx) w0).2 in
  strict_ne (get body "password") (get body "rePassword") = false /\
  In (Called (model_findByPhone (get body "phone")) (Returned None)) tr.
Proof.
  pose proof (register_creates_only_when handle
    (form "13900000000" "654321" "p2" "p2") w0
    (JStr "13900000000") (JStr "p2") ltac:(at_head)) as H.
  destruct H as (_ & _ & Hne & _ & _ & Hnone).
  split; [exact Hne | exact Hnone].
Defined.

Lemma register_success_reports_created_user_witness :
  let ctx := form "13900000000" "654321" "p2" "p2" in
  let body := request_body ctx in
  exists created : User.t,
    Some (data_user 2 "13900000000")
      = Some (data_user (User.id created) (User.nickname created)) /\
    In (Called (service_createUser (get body "phone") (get body "password"))
               (Returned created))
       (invoke (register handle ctx) w0).2.
Proof.
  exact (register_success_reports_created_user handle
           (form "13900000000" "654321" "p2" "p2") w0
           (Some "创建用户成功") _ ltac:(at_head)).
Defined.

(** Alice resets her password: the saved record is hers. *)
Lemma resetPassword_saves_only_new_secret_witness :
  let ctx := form "13800000000" "123456" "n" "n" in
  let saved := User.set_password "k2:n" (User.set_pwd_key "k2" alice) in
  exists u : User.t,
    In (Called (model_findByPhone (get (request_body ctx) "phone"))
               (Returned (Some u)))
       (invoke (resetPassword handle ctx) w0).2 /\
    User.id saved = User.id u /\ User.phone saved = User.phone u /\
    User.token saved = User.token u.
Proof.
  pose proof (resetPassword_saves_only_new_secret handle
    (form "13800000000" "123456" "n" "n") w0
    (User.set_password "k2:n" (User.set_pwd_key "k2" alice))
    ltac:(at_head)) as H.
  destruct H as (_ & u & secret & signedPwd & Hf & _ & _ & _ & _
                 & Hid & Hph & _ & _ & Htok & _).
  exists u. repeat split; assumption.
Defined.

(** An upload request without a file part. *)
Lemma uploadAvatar_no_stream_witness :
  invoke (uploadAvatar (failing_on is_getFileStream no_file) empty_request) w0
    = (Returned tt, w0,
       [Logged info [LText "用户 %d 上传头像"; LNum 1];
        Called ctx_getFileStream (Threw no_file);
        Fail (Custom (CustomError.new_with CustomError.uploadError
                        "Invalid filename"))]).
Proof.
  exact (uploadAvatar_no_stream (failing_on is_getFileStream no_file)
           empty_request w0 w0 no_file ltac:(by_running)).
Defined.

(** An upload that is stored as [a1.png]. *)
Lemma uploadAvatar_stored_witness :
  let tr := (invoke (uploadAvatar handle empty_request) w0).2 in
  responses tr = [success (Some "修改成功")
                    (Some (data_url "/public/uploads/avatar/a1.png"))] /\
  avatar_updates tr = [("/public/uploads/avatar/a1.png", 1)] /\
  drained tr = [].
Proof.
  pose proof (uploadAvatar_stored handle empty_request w0 w0 w0 w0 _
    0%nat (upload w0) {| fileName := "a1.png" |}
    ltac:(by_running) ltac:(by_running) ltac:(by_running)
    ltac:(by_running)) as H.
  cbv zeta. rewrite H. repeat split; by_running.
Defined.

Lemma uploadAvatar_updates_own_record_witness :
  1 = userId empty_request /\
  exists name : string,
    "/public/uploads/avatar/a1.png"
      = String.append "/public/uploads/avatar/" name.
Proof.
  pose proof (uploadAvatar_updates_own_record handle empty_request w0) as H.
  cbv zeta in H. destruct H as [_ H].
  exact (H "/public/uploads/avatar/a1.png" 1 ltac:(at_head)).
Defined.

(** The stream is drained when the store is full, and left alone when
    the upload is stored. *)
Lemma uploadAvatar_drains_on_failure_only_witness :
  (exists s : Stream,
     In (Called ctx_getFileStream (Returned s))
        (invoke (uploadAvatar handle empty_request) w_disk_full).2 /\
     drained (invoke (uploadAvatar handle empty_request) w_disk_full).2
       = [s]) /\
  drained (invoke (uploadAvatar handle empty_request) w0).2 = [].
Proof.
  pose proof (uploadAvatar_drains_on_failure_only handle empty_request
                w_disk_full) as H1.
  pose proof (uploadAvatar_drains_on_failure_only handle empty_request
                w0) as H2.
  cbv zeta in H1, H2.
  split; [apply H1 | apply H2]; by_running.
Defined.

(** Alice's profile. *)
Lemma session_methods_use_current_user_witness :
  exists p : gmap string jsval,
    Some (data_profile (fields [("nickname", JStr "alice")]))
      = Some (data_profile p) /\
    In (Called (model_getProfile (userId empty_request)) (Returned p))
       (invoke (getProfile handle empty_request) w0).2.
Proof.
  pose proof (session_methods_use_current_user handle empty_request w0
    (Some "成功获取用户信息")
    (Some (data_profile (fields [("nickname", JStr "alice")])))) as H.
  destruct H as (_ & _ & H). apply H. at_head.
Defined.

End Witnesses.
